(** * Todo Summary Assistant: the client component [TodoApp] and the task API

    A shallow embedding of [TodoApp] (the React component holding the task
    list, the fetch/add/update/delete handlers and the summarize-and-send
    handler) and of the [Todo] type it works on.  Handlers are written in a
    small state-and-exception monad that mirrors [try]/[catch]/[finally];
    every handler runs to completion before the next event is taken. *)

From Stdlib Require Import String Ascii List Bool PeanoNat NArith Lia.
From Stdlib Require Import DecimalString.
Import ListNotations.

Local Open Scope string_scope.
Local Open Scope list_scope.

(** ** JavaScript string primitives *)

Module Js.

(** [starts_with s needle]: [needle] is an initial segment of [s]. *)
Fixpoint starts_with (s needle : string) {struct needle} : bool :=
  match needle with
  | EmptyString => true
  | String c needle' =>
      match s with
      | EmptyString => false
      | String d s' => Ascii.eqb c d && starts_with s' needle'
      end
  end.

(** [String.prototype.includes]: [needle] occurs in [s] at some position. *)
Fixpoint includes (s needle : string) {struct s} : bool :=
  starts_with s needle ||
  match s with
  | EmptyString => false
  | String _ s' => includes s' needle
  end.

(** [x || d] for a possibly undefined string [x] and a string [d]. *)
Definition or_else (x : option string) (d : string) : string :=
  match x with
  | Some s => if s =? "" then d else s
  | None => d
  end.

(** [`${n}`] for a non-negative integer below 2^53: such a number is held
    exactly by a double and printed with all its digits.  Larger values are
    rounded by the code and printed with an exponent from 10^21 on, which
    this function does not follow; HTTP statuses and task counts are far
    below the bound. *)
Definition number_to_string (n : N) : string :=
  NilZero.string_of_uint (N.to_uint n).

(** [`${x}`] for a possibly undefined number, exact in the range of
    [number_to_string]. *)
Definition template_number (x : option N) : string :=
  match x with
  | Some n => number_to_string n
  | None => "undefined"
  end.

End Js.

(** ** types/todo.ts *)

Record Todo := mkTodo {
  id : string;
  title : string;
  description : option string;      (* string | null *)
  completed : bool;
  created_at : string;
  updated_at : string
}.

Record TodoFormData := mkForm {
  form_title : string;
  form_description : option string  (* description?: string *)
}.

(** [Partial<Todo>]: every field may be left out. *)
Record TodoPatch := mkPatch {
  patch_id : option string;
  patch_title : option string;
  patch_description : option (option string);
  patch_completed : option bool;
  patch_created_at : option string;
  patch_updated_at : option string
}.

(** The update [{ completed: b }]. *)
Definition patch_set_completed (b : bool) : TodoPatch :=
  mkPatch None None None (Some b) None None.

Definition Todo_eq_dec (a b : Todo) : {a = b} + {a <> b}.
Proof.
  decide equality; try apply string_dec; try apply bool_dec.
  decide equality; apply string_dec.
Defined.

(** ** JSON objects placed in request bodies

    Every request body of the component is a flat object whose values are
    strings, booleans or [null]. *)

Inductive JsonValue :=
| JNull
| JBool (b : bool)
| JStr (s : string).

Definition JsonObject := list (string * JsonValue).

(** Own-property lookup. *)
Fixpoint json_get (key : string) (fields : JsonObject) : option JsonValue :=
  match fields with
  | [] => None
  | (k, v) :: rest => if k =? key then Some v else json_get key rest
  end.

(** [JSON.stringify] leaves out the fields that are [undefined]. *)
Definition field {A} (key : string) (enc : A -> JsonValue) (x : option A)
  : JsonObject :=
  match x with
  | Some a => [(key, enc a)]
  | None => []
  end.

Definition nullable (x : option string) : JsonValue :=
  match x with
  | Some s => JStr s
  | None => JNull
  end.

Definition json_of_form (todo : TodoFormData) : JsonObject :=
  ("title", JStr (form_title todo))
  :: field "description" JStr (form_description todo).

Definition json_of_patch (updates : TodoPatch) : JsonObject :=
  field "id" JStr (patch_id updates)
  ++ field "title" JStr (patch_title updates)
  ++ field "description" nullable (patch_description updates)
  ++ field "completed" JBool (patch_completed updates)
  ++ field "created_at" JStr (patch_created_at updates)
  ++ field "updated_at" JStr (patch_updated_at updates).

(** ** The network as the component sees it *)

(** A thrown value: an [Error] carrying a message, or anything else
    ([error instanceof Error] is false). *)
Inductive Thrown :=
| ThrownError (message : string)
| ThrownOther.

(** What [await fetch(...)] gives: the promise rejects, or a response
    arrives.  [body] is what [response.json()] settles to: it rejects, or
    yields a value of the shape the endpoint serves. *)
Inductive Outcome (A : Type) :=
| Rejected (e : Thrown)
| Responded (ok : bool) (status : N) (body : Thrown + A).

Arguments Rejected {A} e.
Arguments Responded {A} ok status body.

(** Body of GET /api/todos: an array of tasks, or an object that may carry
    an [error] string. *)
Inductive ListBody :=
| ListArray (items : list Todo)
| ListObject (error : option string).

(** Body of POST /api/summarize, by the two fields the component reads:
    [data.error] and [data.todoCount]. *)
Record SummaryBody := mkSummaryBody {
  summary_error : option string;
  todoCount : option N
}.

Inductive Method := GET | POST | PATCH | DELETE.

Record Toast := mkToast {
  toast_title : string;
  toast_description : string;
  toast_destructive : bool         (* variant: "destructive" *)
}.

(** What a handler does to the outside world, in order. *)
Inductive Effect :=
| Fetch (method : Method) (path : string) (body : option JsonObject)
| ShowToast (t : Toast)
| ConsoleError (label : string).

Definition is_fetch (e : Effect) : bool :=
  match e with
  | Fetch _ _ _ => true
  | _ => false
  end.

Definition is_toast (e : Effect) : bool :=
  match e with
  | ShowToast _ => true
  | _ => false
  end.

(** ** Component state *)

Record App := mkApp {
  todos : list Todo;
  loading : bool;
  summarizing : bool;
  slackWebhookUrl : string;
  apiError : option string;        (* string | null *)
  tableExists : bool;
  storage : option string;         (* localStorage["slackWebhookUrl"] *)
  trace : list Effect
}.

(** The [useState] initial values; [saved] is what local storage holds from
    earlier sessions. *)
Definition initial (saved : option string) : App :=
  mkApp [] true false "" None true saved [].

(** ** A state-and-exception monad

    [M S E A]: a computation over a state [S] that ends with a value in [A]
    or with a thrown [E].  The component's handlers run in [M App Thrown]. *)

Module Handler.

Inductive Result (E A : Type) :=
| Done (a : A)
| Throws (e : E).

Arguments Done {E A} a.
Arguments Throws {E A} e.

Definition M (S E A : Type) := S -> Result E A * S.

Definition ret {S E A} (a : A) : M S E A := fun s => (Done a, s).

Definition bind {S E A B} (m : M S E A) (k : A -> M S E B) : M S E B :=
  fun s =>
    match m s with
    | (Done a, s') => k a s'
    | (Throws e, s') => (Throws e, s')
    end.

Definition throw {S E A} (e : E) : M S E A := fun s => (Throws e, s).

(** [try { m } catch (error) { h error }] *)
Definition try_catch {S E A} (m : M S E A) (h : E -> M S E A) : M S E A :=
  fun s =>
    match m s with
    | (Done a, s') => (Done a, s')
    | (Throws e, s') => h e s'
    end.

(** [try { m } finally { f }]: [f] runs on every exit of [m], also on
    [return]; an exception of [f] replaces the outcome of [m]. *)
Definition try_finally {S E A} (m : M S E A) (f : M S E unit) : M S E A :=
  fun s =>
    match m s with
    | (r, s') =>
        match f s' with
        | (Done _, s'') => (r, s'')
        | (Throws e, s'') => (Throws e, s'')
        end
    end.

Definition gets {S E A} (proj : S -> A) : M S E A :=
  fun s => (Done (proj s), s).

Definition modify {S E} (f : S -> S) : M S E unit := fun s => (Done tt, f s).

(** The state a computation leaves behind. *)
Definition exec {S E A} (m : M S E A) (s : S) : S := snd (m s).

End Handler.

Import Handler.

Declare Scope handler_scope.
Delimit Scope handler_scope with handler.
Notation "x <- m ;; k" := (bind m (fun x => k))
  (at level 61, m at next level, right associativity) : handler_scope.
Notation "m ;; k" := (bind m (fun _ => k))
  (at level 61, right associativity) : handler_scope.
Local Open Scope handler_scope.

(** Handlers of the component. *)
Definition H (A : Type) := M App Thrown A.

(** *** State setters and effects *)

Definition setTodos (v : list Todo) : H unit :=
  modify (fun s => mkApp v (loading s) (summarizing s) (slackWebhookUrl s)
                         (apiError s) (tableExists s) (storage s) (trace s)).

Definition setLoading (v : bool) : H unit :=
  modify (fun s => mkApp (todos s) v (summarizing s) (slackWebhookUrl s)
                         (apiError s) (tableExists s) (storage s) (trace s)).

Definition setSummarizing (v : bool) : H unit :=
  modify (fun s => mkApp (todos s) (loading s) v (slackWebhookUrl s)
                         (apiError s) (tableExists s) (storage s) (trace s)).

Definition setSlackWebhookUrl (v : string) : H unit :=
  modify (fun s => mkApp (todos s) (loading s) (summarizing s) v
                         (apiError s) (tableExists s) (storage s) (trace s)).

Definition setApiError (v : option string) : H unit :=
  modify (fun s => mkApp (todos s) (loading s) (summarizing s)
                         (slackWebhookUrl s) v (tableExists s) (storage s)
                         (trace s)).

Definition setTableExists (v : bool) : H unit :=
  modify (fun s => mkApp (todos s) (loading s) (summarizing s)
                         (slackWebhookUrl s) (apiError s) v (storage s)
                         (trace s)).

(** [localStorage.setItem("slackWebhookUrl", v)] *)
Definition storage_set (v : string) : H unit :=
  modify (fun s => mkApp (todos s) (loading s) (summarizing s)
                         (slackWebhookUrl s) (apiError s) (tableExists s)
                         (Some v) (trace s)).

Definition emit (e : Effect) : H unit :=
  modify (fun s => mkApp (todos s) (loading s) (summarizing s)
                         (slackWebhookUrl s) (apiError s) (tableExists s)
                         (storage s) (trace s ++ [e])).

Definition toast (ttl descr : string) (destructive : bool) : H unit :=
  emit (ShowToast (mkToast ttl descr destructive)).

Definition console_error (label : string) : H unit :=
  emit (ConsoleError label).

Record Response (A : Type) := mkResponse {
  ok : bool;
  status : N;
  json_body : Thrown + A
}.

Arguments mkResponse {A} ok status json_body.
Arguments ok {A} r.
Arguments status {A} r.
Arguments json_body {A} r.

(** [await fetch(path, {method, body})]: the request goes out, then the
    promise settles as [o] says. *)
Definition fetch {A} (method : Method) (path : string)
    (body : option JsonObject) (o : Outcome A) : H (Response A) :=
  emit (Fetch method path body) ;;
  match o with
  | Rejected e => throw e
  | Responded k st b => ret (mkResponse k st b)
  end.

(** [await response.json()] *)
Definition json {A} (r : Response A) : H A :=
  match json_body r with
  | inl e => throw e
  | inr a => ret a
  end.

(** ** The handlers of [TodoApp] *)

(** The double-quote character, for the string literal of line 46. *)
Definition dquote : string := String (Ascii.ascii_of_nat 34) EmptyString.

(** ['relation "public.todos" does not exist'] *)
Definition table_marker : string :=
  "relation " ++ dquote ++ "public.todos" ++ dquote ++ " does not exist".

(** The test of lines 65-68 on a string. *)
Definition mentions_missing_table (text : string) : bool :=
  Js.includes text table_marker
  || (Js.includes text "relation" && Js.includes text "does not exist").

(** The test of lines 45-48 on [errorData.error]: [?.] gives [undefined],
    which is falsy, when the field is missing. *)
Definition error_mentions_missing_table (error : option string) : bool :=
  match error with
  | Some text => mentions_missing_table text
  | None => false
  end.

(** [errorData.error] for a body of GET /api/todos; an array has no such
    property. *)
Definition error_of (b : ListBody) : option string :=
  match b with
  | ListArray _ => None
  | ListObject error => error
  end.

(** [await response.json().catch(() => ({}))] *)
Definition json_or_empty (r : Response ListBody) : H ListBody :=
  match json_body r with
  | inl _ => ret (ListObject None)
  | inr b => ret b
  end.

(** [error instanceof Error ? error.message : fallback] *)
Definition message_of (error : Thrown) (fallback : string) : string :=
  match error with
  | ThrownError message => message
  | ThrownOther => fallback
  end.

(** [`Server responded with ${response.status}`] *)
Definition status_message (st : N) : string :=
  "Server responded with " ++ Js.number_to_string st.

Arguments status_message : simpl never.

Definition fetchTodos (o : Outcome ListBody) : H unit :=
  setLoading true ;;
  setApiError None ;;
  try_finally
    (try_catch
       (response <- fetch GET "/api/todos" None o ;;
        if negb (ok response) then
          errorData <- json_or_empty response ;;
          console_error "Error response:" ;;
          if error_mentions_missing_table (error_of errorData) then
            setTableExists false ;;
            setLoading false            (* return *)
          else
            throw (ThrownError
                     (Js.or_else (error_of errorData)
                        (status_message (status response))))
        else
          data <- json response ;;
          setTodos (match data with
                    | ListArray items => items
                    | ListObject _ => []
                    end) ;;
          setTableExists true)
       (fun error =>
          console_error "Error fetching todos:" ;;
          let errorMessage :=
            message_of error "Failed to load todos. Please try again." in
          (if mentions_missing_table errorMessage then
             setTableExists false
           else
             setApiError (Some errorMessage) ;;
             toast "Error" errorMessage true) ;;
          setTodos []))
    (setLoading false).

Definition addTodo (todo : TodoFormData) (o : Outcome Todo) : H unit :=
  try_catch
    (response <- fetch POST "/api/todos" (Some (json_of_form todo)) o ;;
     if negb (ok response) then
       throw (ThrownError "Failed to add todo")
     else
       newTodo <- json response ;;
       current <- gets todos ;;
       setTodos (newTodo :: current) ;;
       toast "Success" "Todo added successfully" false)
    (fun _ =>
       console_error "Error adding todo:" ;;
       toast "Error" "Failed to add todo. Please try again." true).

Definition updateTodo (id0 : string) (updates : TodoPatch) (o : Outcome Todo)
  : H unit :=
  try_catch
    (response <- fetch PATCH ("/api/todos/" ++ id0)
                   (Some (json_of_patch updates)) o ;;
     if negb (ok response) then
       throw (ThrownError "Failed to update todo")
     else
       updatedTodo <- json response ;;
       current <- gets todos ;;
       setTodos (map (fun todo => if id todo =? id0 then updatedTodo else todo)
                     current) ;;
       toast "Success" "Todo updated successfully" false)
    (fun _ =>
       console_error "Error updating todo:" ;;
       toast "Error" "Failed to update todo. Please try again." true).

(** The body of the DELETE response is never read. *)
Definition deleteTodo (id0 : string) (o : Outcome unit) : H unit :=
  try_catch
    (response <- fetch DELETE ("/api/todos/" ++ id0) None o ;;
     if negb (ok response) then
       throw (ThrownError "Failed to delete todo")
     else
       current <- gets todos ;;
       setTodos (filter (fun todo => negb (id todo =? id0)) current) ;;
       toast "Success" "Todo deleted successfully" false)
    (fun _ =>
       console_error "Error deleting todo:" ;;
       toast "Error" "Failed to delete todo. Please try again." true).

Definition summarizeAndSendToSlack (o : Outcome SummaryBody) : H unit :=
  url <- gets slackWebhookUrl ;;
  if url =? "" then
    toast "Error" "Please enter a Slack webhook URL" true   (* return *)
  else
    storage_set url ;;
    setSummarizing true ;;
    try_finally
      (try_catch
         (response <- fetch POST "/api/summarize"
                        (Some [("slackWebhookUrl", JStr url)]) o ;;
          data <- json response ;;
          if negb (ok response) then
            throw (ThrownError
                     (Js.or_else (summary_error data)
                        "Failed to summarize todos"))
          else
            toast "Success"
              ("Summary of " ++ Js.template_number (todoCount data)
                 ++ " todos sent to Slack successfully!") false)
         (fun error =>
            console_error "Error summarizing todos:" ;;
            toast "Error" (message_of error "Failed to summarize todos") true))
      (setSummarizing false).

(** The mount effect: start the fetch, then restore the saved webhook URL. *)
Definition on_mount (o : Outcome ListBody) : H unit :=
  fetchTodos o ;;
  savedWebhookUrl <- gets storage ;;
  match savedWebhookUrl with
  | Some v => if v =? "" then ret tt else setSlackWebhookUrl v
  | None => ret tt
  end.

(** ** What is rendered *)

Definition pendingTodos (s : App) : list Todo :=
  filter (fun todo => negb (completed todo)) (todos s).

Definition completedTodos (s : App) : list Todo :=
  filter (fun todo => completed todo) (todos s).

Definition is_empty {A} (l : list A) : bool :=
  match l with
  | [] => true
  | _ :: _ => false
  end.

Inductive View :=
| ViewLoading                       (* the spinner *)
| ViewSetupRequired                 (* "Database Table Not Found" and Refresh *)
| ViewApiError (error : string)     (* ApiErrorFallback with onRetry *)
| ViewMain.                         (* form, summarize card and the two tabs *)

(** The three early exits of the render body; [apiError ? ... : ...] takes
    the empty string for absent. *)
Definition render (s : App) : View :=
  if loading s then ViewLoading
  else if negb (tableExists s) then ViewSetupRequired
  else match apiError s with
       | Some error => if error =? "" then ViewMain else ViewApiError error
       | None => ViewMain
       end.

(** [disabled={summarizing || pendingTodos.length === 0}] *)
Definition summarize_disabled (s : App) : bool :=
  summarizing s || is_empty (pendingTodos s).

(** The line under the summarize button. *)
Definition pending_notice (s : App) : option string :=
  if is_empty (pendingTodos s) then Some "No pending todos to summarize"
  else None.

Definition count_label (name : string) (l : list Todo) : string :=
  name ++ " (" ++ Js.number_to_string (N.of_nat (length l)) ++ ")".

Definition pending_tab_label (s : App) : string :=
  count_label "Pending" (pendingTodos s).

Definition completed_tab_label (s : App) : string :=
  count_label "Completed" (completedTodos s).

(** A click on the summarize button: a disabled button runs no handler. *)
Definition click_summarize (o : Outcome SummaryBody) : H unit :=
  fun s =>
    if summarize_disabled s then ret tt s
    else summarizeAndSendToSlack o s.

(** ** Events *)

Inductive Event :=
| Mount (o : Outcome ListBody)
| ClickRefresh (o : Outcome ListBody)
| ClickRetry (o : Outcome ListBody)
| SubmitForm (todo : TodoFormData) (o : Outcome Todo)
| UpdateItem (id0 : string) (updates : TodoPatch) (o : Outcome Todo)
| DeleteItem (id0 : string) (o : Outcome unit)
| TypeUrl (value : string)
| ClickSummarize (o : Outcome SummaryBody).

(** An event can occur when the view on screen offers its control; the
    mount effect runs under the first render. *)
Definition offered (ev : Event) (s : App) : bool :=
  match ev, render s with
  | Mount _, ViewLoading => true
  | ClickRefresh _, ViewSetupRequired => true
  | ClickRetry _, ViewApiError _ => true
  | SubmitForm _ _, ViewMain => true
  | UpdateItem _ _ _, ViewMain => true
  | DeleteItem _ _, ViewMain => true
  | TypeUrl _, ViewMain => true
  | ClickSummarize _, ViewMain => true
  | _, _ => false
  end.

Definition handler (ev : Event) : H unit :=
  match ev with
  | Mount o => on_mount o
  | ClickRefresh o => fetchTodos o
  | ClickRetry o => fetchTodos o
  | SubmitForm todo o => addTodo todo o
  | UpdateItem id0 updates o => updateTodo id0 updates o
  | DeleteItem id0 o => deleteTodo id0 o
  | TypeUrl value => setSlackWebhookUrl value
  | ClickSummarize o => click_summarize o
  end.

Definition dispatch (ev : Event) (s : App) : option App :=
  if offered ev s then Some (exec (handler ev) s) else None.

Fixpoint run (evs : list Event) (s : App) : option App :=
  match evs with
  | [] => Some s
  | ev :: rest =>
      match dispatch ev s with
      | Some s' => run rest s'
      | None => None
      end
  end.

(** States the component can be in between two events. *)
Definition reachable (s : App) : Prop :=
  exists saved evs, run evs (initial saved) = Some s.

(** ** The server side: task repository and summarize-and-notify pipeline *)

Module Api.

(** Modelled from the spec: the error taxonomy of the API routes, which are
    not among the sources (section 7 of the specification). *)
Inductive ApiError :=
| ValidationError
| NotFound
| StoreUnavailable
| NoPendingItems
| UpstreamUnavailable
| EmptyCompletion
| InvalidDestination
| DeliveryFailed (status : N).


(** Modelled from the spec: the task store, which is not among the sources.
    [rows] is the [todos] table in creation order, [issued] every identifier
    the store has handed out since it was provisioned, [clock] the time of
    its latest statement. *)
Record Store := mkStore {
  rows : list Todo;
  issued : list string;
  clock : string
}.


Definition has_id (id0 : string) (t : Todo) : bool := id t =? id0.

Section Repository.

(** The identifier that the table's [DEFAULT gen_random_uuid()] draws for a
    new row, given the identifiers handed out so far.  Nothing is assumed of
    it. *)
Variable fresh_id : list string -> string.

(** The failure the route reports when the table refuses a row. *)
Variable conflict_error : ApiError.


(** Modelled from the spec: a partial update sets the fields it names among
    [title], [description] and [completed], keeps [id] and [created_at], and
    refreshes [updated_at]. *)
Definition apply_patch (now : string) (p : TodoPatch) (t : Todo) : Todo :=
  mkTodo (id t)
         (match patch_title p with Some v => v | None => title t end)
         (match patch_description p with Some v => v | None => description t end)
         (match patch_completed p with Some v => v | None => completed t end)
         (created_at t)
         now.

(** Modelled from the spec: [update(id, partialFields)] gives the updated
    task and fails with [NotFound] when no task has that [id]. *)
Definition update (now : string) (id0 : string) (p : TodoPatch)
  : M Store ApiError Todo :=
  current <- gets rows ;;
  match find (has_id id0) current with
  | None => throw NotFound
  | Some t =>
      modify (fun st =>
                mkStore (map (fun r => if has_id id0 r then apply_patch now p r
                                       else r) (rows st))
                        (issued st) now) ;;
      ret (apply_patch now p t)
  end.


(** Modelled from the spec: [list()] gives all tasks in one consistent
    order. *)
Definition list_all : M Store ApiError (list Todo) := gets rows.




End Repository.

(** *** Summarize and notify *)

Inductive Completion :=
| LlmUnreachable
| LlmText (text : string).

(** An outbound call of the pipeline. *)
Inductive Call :=
| CallStore
| CallLlm (prompt : string)
| CallWebhook (url text : string).

(** The server while it handles one request: the table, if it is
    provisioned and reachable, and the outbound calls made so far. *)
Record Server := mkServer {
  table : option Store;
  calls : list Call
}.

Definition P (A : Type) := M Server ApiError A.

Definition call (c : Call) : P unit :=
  modify (fun sv => mkServer (table sv) (calls sv ++ [c])).

Definition newline : string := String (Ascii.ascii_of_nat 10) EmptyString.

Definition prompt_line (t : Todo) : string :=
  "- " ++ title t ++
  match description t with
  | Some d => ": " ++ d
  | None => EmptyString
  end.

(** Modelled from the spec: a deterministic prompt that enumerates each
    task's title and description. *)
Definition build_prompt (tasks : list Todo) : string :=
  String.concat newline (map prompt_line tasks).

Definition http_success (status : N) : bool :=
  (200 <=? status)%N && (status <? 300)%N.

Section Pipeline.

(** The collaborators: URL well-formedness, the LLM completion API and the
    webhook endpoint (which answers with an HTTP status). *)
Variable well_formed_url : string -> bool.
Variable llm : string -> Completion.
Variable webhook : string -> string -> N.

(** Modelled from the spec: an empty or malformed destination fails with
    [InvalidDestination]. *)
Definition validate_destination (url : string) : P unit :=
  if (url =? "") || negb (well_formed_url url) then throw InvalidDestination
  else ret tt.

(** Modelled from the spec: the incomplete tasks, read through the
    repository; a missing or unreachable table is [StoreUnavailable]. *)
Definition list_incomplete : P (list Todo) :=
  call CallStore ;;
  t <- gets table ;;
  match t with
  | None => throw StoreUnavailable
  | Some st => ret (filter (fun todo => negb (completed todo)) (rows st))
  end.

(** Modelled from the spec (4.2): no task, no LLM call; otherwise one
    completion request, whose failure or empty text ends the invocation. *)
Definition summarize (pending : list Todo) : P (string * nat) :=
  match pending with
  | [] => throw NoPendingItems
  | _ :: _ =>
      let prompt := build_prompt pending in
      call (CallLlm prompt) ;;
      match llm prompt with
      | LlmUnreachable => throw UpstreamUnavailable
      | LlmText text =>
          if text =? "" then throw EmptyCompletion
          else ret (text, length pending)
      end
  end.

(** Modelled from the spec (4.3): the destination is checked before any
    request; one POST; a non-success status is [DeliveryFailed]. *)
Definition dispatch_summary (text url : string) : P unit :=
  validate_destination url ;;
  call (CallWebhook url text) ;;
  let status := webhook url text in
  if http_success status then ret tt else throw (DeliveryFailed status).

(** Modelled from the spec (4.4): validate the destination, list the
    incomplete tasks, stop when there is none, summarize, dispatch, and
    answer with the number of summarized tasks. *)
Definition summarize_and_notify (url : string) : P nat :=
  validate_destination url ;;
  pending <- list_incomplete ;;
  if is_empty pending then throw NoPendingItems
  else
    summary <- summarize pending ;;
    dispatch_summary (fst summary) url ;;
    ret (snd summary).

(** One request to the endpoint: the pipeline on a server that has made no
    outbound call yet. *)
Definition serve (url : string) (tbl : option Store)
  : Result ApiError nat * Server :=
  summarize_and_notify url (mkServer tbl []).

(** Modelled from the spec (section 6): 400 for no pending tasks or a bad
    URL, 500 for the other failures of this endpoint. *)
Definition http_status (e : ApiError) : N :=
  match e with
  | NoPendingItems | InvalidDestination | ValidationError => 400
  | NotFound => 404
  | _ => 500
  end.

(** The text that the route puts under [error] for each failure. *)
Variable describe : ApiError -> string.

(** Modelled from the spec (section 6): the response of POST /summarize,
    [{todoCount}] on success and [{error}] with the failure status
    otherwise. *)
Definition respond_summarize (r : Result ApiError nat) : Outcome SummaryBody :=
  match r with
  | Done n => Responded true 200 (inr (mkSummaryBody None (Some (N.of_nat n))))
  | Throws e =>
      Responded false (http_status e)
                (inr (mkSummaryBody (Some (describe e)) None))
  end.

End Pipeline.

End Api.

(** * Vocabulary of the properties *)

Import Api.

(** [needle] occurs in [text]. *)
Definition contains (text needle : string) : Prop :=
  exists pre post, text = (pre ++ needle ++ post)%string.

(** The effects one run of a handler adds to the trace. *)
Definition effects_of {A} (m : H A) (s : App) : list Effect :=
  skipn (length (trace s)) (trace (exec m s)).

(** The text of an error result of GET /api/todos: the message of a thrown
    [Error] (a rejected request, a body that does not parse), the [error]
    string of an error body, and the component's own wording where the result
    has none.  A parsed body under a successful status is no error result. *)
Definition error_text (o : Outcome ListBody) : option string :=
  match o with
  | Rejected e => Some (message_of e "Failed to load todos. Please try again.")
  | Responded true _ (inl e) =>
      Some (message_of e "Failed to load todos. Please try again.")
  | Responded true _ (inr _) => None
  | Responded false _ (inr (ListObject (Some text))) => Some text
  | Responded false st _ => Some (status_message st)
  end.

(** The list a completed [fetchTodos] is to leave, by outcome. *)
Definition fetched (o : Outcome ListBody) : list Todo :=
  match o with
  | Responded true _ (inr (ListArray items)) => items
  | _ => []
  end.

(** The events that run [fetchTodos], with the outcome of the request. *)
Definition fetch_outcome (ev : Event) : option (Outcome ListBody) :=
  match ev with
  | Mount o | ClickRefresh o | ClickRetry o => Some o
  | _ => None
  end.

(** [s'] shows the same one of the four views as [s]. *)
Definition same_screen (s s' : App) : Prop :=
  loading s' = loading s /\ tableExists s' = tableExists s
  /\ apiError s' = apiError s.

(** Whenever a view other than the main one is on screen, the list is
    empty. *)
Definition idle_is_empty (s : App) : Prop :=
  render s <> ViewMain -> todos s = [].



(** The incomplete tasks of a table, none when it cannot be read. *)
Definition incomplete (tbl : option Store) : list Todo :=
  match tbl with
  | Some st => filter (fun todo => negb (completed todo)) (rows st)
  | None => []
  end.

(** ** Sample data *)

Definition hook_url : string := "https://hooks.slack.com/services/T0/B0/x".

Definition main_state (items : list Todo) (url : string) : App :=
  mkApp items false false url None true None [].

Definition write_report : Todo :=
  mkTodo "1" "Write report" None false "2024-05-01T10:00:00Z"
         "2024-05-01T10:00:00Z".

Definition missing_table_reply : Outcome ListBody :=
  Responded false 500 (inr (ListObject (Some table_marker))).

Definition setup_required_state : App :=
  exec (on_mount missing_table_reply) (initial None).







Definition sample_well_formed (url : string) : bool :=
  Js.starts_with url "https://".

Definition sample_llm (prompt : string) : Completion :=
  LlmText ("You still have to do: " ++ prompt).

Definition sample_webhook (url text : string) : N := 200.

Definition sample_describe (e : ApiError) : string :=
  match e with
  | NoPendingItems => "No pending todos to summarize"
  | InvalidDestination => "Invalid Slack webhook URL"
  | _ => "Failed to summarize todos"
  end.

Definition sample_table : option Store :=
  Some (mkStore [write_report] ["1"] "2024-05-01T10:00:00Z").

(** A store whose only task is completed. *)
Definition store_of_done_tasks : Store :=
  mkStore [mkTodo "1" "Write report" None true "2024-05-01T10:00:00Z"
                  "2024-05-03T12:00:00Z"]
          ["1"] "2024-05-03T12:00:00Z".

(** * Properties *)

(** ** Substring search *)

Lemma starts_with_spec (needle s : string) :
  Js.starts_with s needle = true <-> exists post, s = (needle ++ post)%string.
Proof.
  revert s; induction needle as [|c needle IH]; intros s; cbn.
  - split; [exists s; reflexivity | reflexivity].
  - destruct s as [|d s].
    + split; [discriminate | intros [post E]; discriminate].
    + rewrite andb_true_iff, Ascii.eqb_eq, IH. split.
      * intros [-> [post ->]]. exists post; reflexivity.
      * intros [post E]. injection E as -> ->. split; [reflexivity | eauto].
Qed.

Lemma includes_spec (s needle : string) :
  Js.includes s needle = true <-> contains s needle.
Proof.
  unfold contains. induction s as [|c s IH]; cbn [Js.includes].
  - rewrite orb_false_r, starts_with_spec. split.
    + intros [post E]. exists EmptyString, post. exact E.
    + intros [pre [post E]]. destruct pre; [eauto | discriminate].
  - rewrite orb_true_iff, starts_with_spec, IH. split.
    + intros [[post E] | [pre [post E]]].
      * exists EmptyString, post. exact E.
      * exists (String c pre), post. cbn. now rewrite E.
    + intros [pre [post E]]. destruct pre as [|d pre]; cbn in E.
      * left; eauto.
      * right. injection E as _ E. eauto.
Qed.

Lemma digits_no_relation (d : Decimal.uint) :
  Js.includes (NilZero.string_of_uint d) "relation" = false.
Proof.
  assert (G : forall u, Js.includes (NilEmpty.string_of_uint u) "relation" = false).
  { induction u; cbn in *; auto. }
  unfold NilZero.string_of_uint. destruct d; try apply G. reflexivity.
Qed.

Lemma contains_left (s a b : string) :
  contains s (a ++ b) -> contains s a.
Proof.
  intros [pre [post E]]. exists pre, (b ++ post)%string.
  rewrite E. clear E. induction pre; cbn; [|congruence].
  induction a; cbn; congruence.
Qed.

Lemma marker_mentions_relation (s : string) :
  Js.includes s table_marker = true -> Js.includes s "relation" = true.
Proof.
  rewrite !includes_spec. apply (contains_left s "relation").
Qed.

Lemma status_message_not_marker (st : N) :
  mentions_missing_table (status_message st) = false.
Proof.
  unfold mentions_missing_table.
  assert (R : Js.includes (status_message st) "relation" = false).
  { unfold status_message. cbn. apply digits_no_relation. }
  rewrite R, andb_false_l, orb_false_r.
  destruct (Js.includes _ table_marker) eqn:E; [|reflexivity].
  apply marker_mentions_relation in E. congruence.
Qed.

Lemma mentions_missing_table_spec (text : string) :
  mentions_missing_table text = true <->
  contains text table_marker
  \/ (contains text "relation" /\ contains text "does not exist").
Proof.
  unfold mentions_missing_table.
  now rewrite orb_true_iff, andb_true_iff, !includes_spec.
Qed.

(** ** Running a handler *)

Lemma skipn_length_app {A} (l r : list A) : skipn (length l) (l ++ r) = r.
Proof. induction l; cbn; auto. Qed.

(** Unfold the monad and the setters, then compute. *)
Ltac step_monad :=
  cbv [try_finally try_catch bind ret throw gets modify exec
       fetch json json_or_empty emit toast console_error storage_set
       setTodos setLoading setSummarizing setSlackWebhookUrl setApiError
       setTableExists];
  cbn -[String.append mentions_missing_table Js.number_to_string].

Ltac run_handler :=
  unfold effects_of;
  cbv [fetchTodos addTodo updateTodo deleteTodo summarizeAndSendToSlack
       on_mount click_summarize];
  step_monad;
  repeat rewrite <- app_assoc;
  try rewrite skipn_length_app;
  cbn -[String.append mentions_missing_table Js.number_to_string].

Ltac run_pipeline :=
  cbv [serve summarize_and_notify validate_destination list_incomplete
       summarize dispatch_summary call
       try_finally try_catch bind ret throw gets modify exec
       table calls app is_empty fst snd].

(** ** Fetching the list *)

Ltac setup_case := repeat split; auto; discriminate.

Ltac generic_case :=
  split; [split; [intros [_ F] |]; discriminate|];
  split; [discriminate|]; intros _; eexists; repeat split.

(** C1: an error result of GET /api/todos puts the component in the
    setup-required state, without a toast, exactly when its text contains the
    marker ['relation "public.todos" does not exist'] or both ["relation"]
    and ["does not exist"]; every other text is stored in [apiError] and shown
    in one destructive toast (the text itself unless it is empty), and
    [tableExists] stays as it was. *)
Theorem fetchTodos_setup_required_iff (s : App) (o : Outcome ListBody)
    (text : string) :
  error_text o = Some text ->
  let s' := exec (fetchTodos o) s in
  let toasts := filter is_toast (effects_of (fetchTodos o) s) in
  ((tableExists s' = false /\ toasts = []) <->
   (contains text table_marker
    \/ (contains text "relation" /\ contains text "does not exist")))
  /\ (mentions_missing_table text = true -> apiError s' = None)
  /\ (mentions_missing_table text = false ->
      exists shown,
        apiError s' = Some shown
        /\ toasts = [ShowToast (mkToast "Error" shown true)]
        /\ (text <> EmptyString -> shown = text)
        /\ tableExists s' = tableExists s).
Proof.
  intros T. cbv zeta. rewrite <- mentions_missing_table_spec.
  destruct o as [e | [|] st [e | [items | [err|]]]];
    cbn [error_text] in T;
    try discriminate; injection T as <-;
    try (destruct e as [m|]; cbn [message_of]);
    match goal with
    | |- context [mentions_missing_table ?t = true] =>
        destruct (mentions_missing_table t) eqn:E
    end;
    run_handler; rewrite ?E; run_handler;
    try solve [setup_case | generic_case].
  destruct (String.eqb_spec err EmptyString) as [-> | N];
    [rewrite status_message_not_marker | rewrite E]; run_handler;
    generic_case.
  intros F; now elim F.
Qed.

Lemma fetchTodos_setup_required_iff_witness :
  error_text missing_table_reply = Some table_marker
  /\ tableExists (exec (fetchTodos missing_table_reply) (initial None)) = false.
Proof.
  split; [reflexivity|].
  apply (fetchTodos_setup_required_iff (initial None) missing_table_reply
           table_marker eq_refl).
  left. exists EmptyString, EmptyString. reflexivity.
Defined.

Lemma fetchTodos_from_empty (o : Outcome ListBody) (s : App) :
  todos s = [] ->
  todos (exec (fetchTodos o) s) = fetched o
  /\ (render (exec (fetchTodos o) s) = ViewMain
      \/ todos (exec (fetchTodos o) s) = []).
Proof.
  intros E.
  destruct o as [e | [|] st [e | [items | error]]]; run_handler;
    repeat match goal with
           | |- context [if ?c then _ else _] => destruct c; run_handler
           end; auto.
Qed.

Lemma on_mount_from_empty (o : Outcome ListBody) (s : App) :
  todos s = [] ->
  todos (exec (on_mount o) s) = fetched o
  /\ (render (exec (on_mount o) s) = ViewMain
      \/ todos (exec (on_mount o) s) = []).
Proof.
  intros E. destruct (fetchTodos_from_empty o s E) as [F V].
  unfold on_mount, exec, bind in *.
  destruct (fetchTodos o s) as [[[] | e] s1]; cbn in *; auto.
  unfold gets. destruct (storage s1) as [v|]; cbn; auto.
  destruct (v =? ""); cbn; auto.
Qed.

Lemma same_screen_render (s s' : App) : same_screen s s' -> render s' = render s.
Proof. intros (L & T & A). unfold render. now rewrite L, T, A. Qed.

Lemma main_handlers_keep_screen (ev : Event) (s : App) :
  fetch_outcome ev = None -> same_screen s (exec (handler ev) s).
Proof.
  unfold same_screen.
  destruct ev as [o | o | o | todo o | id0 updates o | id0 o | value | o];
    try discriminate; intros _; cbn [handler].
  - destruct o as [e | [|] st [e | t]]; run_handler; auto.
  - destruct o as [e | [|] st [e | t]]; run_handler; auto.
  - destruct o as [e | [|] st [e | t]]; run_handler; auto.
  - run_handler; auto.
  - unfold click_summarize, exec. destruct (summarize_disabled s); cbn; auto.
    destruct o as [e | [|] st [e | t]]; run_handler;
      destruct (slackWebhookUrl s =? ""); run_handler; auto.
Qed.

Lemma dispatch_keeps_idle_is_empty (ev : Event) (s s' : App) :
  idle_is_empty s -> dispatch ev s = Some s' -> idle_is_empty s'.
Proof.
  unfold dispatch. intros I D.
  destruct (offered ev s) eqn:O; [|discriminate]. injection D as <-.
  destruct (fetch_outcome ev) as [o|] eqn:F.
  - assert (E : todos s = []).
    { apply I. intros V. unfold offered in O. rewrite V in O.
      destruct ev; discriminate. }
    intros NV.
    destruct ev; try discriminate; injection F as ->; cbn [handler] in *.
    + destruct (on_mount_from_empty o s E) as [_ [V | Z]]; tauto.
    + destruct (fetchTodos_from_empty o s E) as [_ [V | Z]]; tauto.
    + destruct (fetchTodos_from_empty o s E) as [_ [V | Z]]; tauto.
  - intros NV. exfalso. apply NV.
    rewrite (same_screen_render s _ (main_handlers_keep_screen ev s F)).
    unfold offered in O. destruct ev, (render s); try discriminate; auto.
Qed.

Lemma run_keeps_idle_is_empty (evs : list Event) (s s' : App) :
  idle_is_empty s -> run evs s = Some s' -> idle_is_empty s'.
Proof.
  revert s. induction evs as [|ev evs IH]; intros s I R; cbn in R.
  - now injection R as <-.
  - destruct (dispatch ev s) as [s1|] eqn:D; [|discriminate].
    eauto using dispatch_keeps_idle_is_empty.
Qed.

Lemma reachable_idle_is_empty (s : App) : reachable s -> idle_is_empty s.
Proof.
  intros (saved & evs & R).
  apply (run_keeps_idle_is_empty evs (initial saved)); [|exact R].
  intros _. reflexivity.
Qed.

(** In a run of the component, handlers taken one at a time, the list is
    empty whenever a fetch starts, so that after the fetch it holds the array
    of a successful response and is empty in every other case. *)
Lemma fetchTodos_always_leaves_a_list (s s' : App) (ev : Event)
    (o : Outcome ListBody) :
  reachable s ->
  dispatch ev s = Some s' ->
  fetch_outcome ev = Some o ->
  todos s' = match o with
             | Responded true _ (inr (ListArray items)) => items
             | _ => []
             end.
Proof.
  intros R D F. unfold dispatch in D.
  destruct (offered ev s) eqn:O; [|discriminate]. injection D as <-.
  assert (E : todos s = []).
  { apply (reachable_idle_is_empty s R). intros V. unfold offered in O.
    rewrite V in O. destruct ev; discriminate. }
  destruct ev; try discriminate; injection F as ->; cbn [handler].
  - apply (on_mount_from_empty o s E).
  - apply (fetchTodos_from_empty o s E).
  - apply (fetchTodos_from_empty o s E).
Qed.

(** ** Summarize and send *)

Lemma summarize_fetches_once (s : App) (o : Outcome SummaryBody) :
  slackWebhookUrl s <> EmptyString ->
  filter is_fetch (effects_of (summarizeAndSendToSlack o) s)
  = [Fetch POST "/api/summarize"
       (Some [("slackWebhookUrl", JStr (slackWebhookUrl s))])].
Proof.
  intros N. apply String.eqb_neq in N.
  destruct o as [e | k st [e | data]]; run_handler; rewrite N; run_handler;
    try reflexivity.
  destruct k; run_handler; reflexivity.
Qed.

(** C2 as stated fails: the one request of a run carries the URL under the
    key [slackWebhookUrl]; its body has no [webhookUrl] key. *)
Lemma summarize_request_has_no_webhookUrl_key :
  let o := Responded true 200 (inr (mkSummaryBody None (Some 1%N))) in
  let body := [("slackWebhookUrl", JStr hook_url)] in
  filter is_fetch
    (effects_of (summarizeAndSendToSlack o) (main_state [write_report] hook_url))
  = [Fetch POST "/api/summarize" (Some body)]
  /\ json_get "webhookUrl" body = None.
Proof. split; reflexivity. Qed.

Lemma serve_done_count (well_formed_url : string -> bool)
    (llm : string -> Completion) (webhook : string -> string -> N)
    (url : string) (tbl : option Store) (n : nat) (sv : Server) :
  serve well_formed_url llm webhook url tbl = (Done n, sv) ->
  n = length (incomplete tbl).
Proof.
  run_pipeline.
  destruct ((url =? "") || negb (well_formed_url url)); [discriminate|].
  destruct tbl as [st|]; [|discriminate]. cbn [incomplete].
  destruct (filter (fun todo => negb (completed todo)) (rows st))
    as [|x pending]; [discriminate|].
  destruct (llm _) as [|text]; [discriminate|].
  destruct (text =? ""); [discriminate|].
  destruct (http_success _); [|discriminate].
  now intros [= <- _].
Qed.

(** C2, amended: a summarize-and-send run that reaches the network makes
    one request, a POST to /api/summarize whose body holds the URL under the
    key [slackWebhookUrl].  The success response carries the count of
    summarized tasks under [todoCount]: the component takes the number under
    that key for the count it reports, and the response of the route for a
    completed pipeline holds there the number of incomplete tasks that were
    summarized. *)
Theorem summarize_request_and_count (s : App) (o : Outcome SummaryBody) :
  slackWebhookUrl s <> EmptyString ->
  let effects := effects_of (summarizeAndSendToSlack o) s in
  let reports count :=
    filter is_toast effects
    = [ShowToast
         (mkToast "Success"
            ("Summary of " ++ Js.number_to_string count
               ++ " todos sent to Slack successfully!") false)] in
  filter is_fetch effects
  = [Fetch POST "/api/summarize"
       (Some [("slackWebhookUrl", JStr (slackWebhookUrl s))])]
  /\ (forall st err count,
        o = Responded true st (inr (mkSummaryBody err (Some count))) ->
        (count < 2 ^ 53)%N ->
        reports count)
  /\ (forall well_formed_url llm webhook describe tbl n sv,
        serve well_formed_url llm webhook (slackWebhookUrl s) tbl
        = (Done n, sv) ->
        o = respond_summarize describe (Done n) ->
        (N.of_nat n < 2 ^ 53)%N ->
        n = length (incomplete tbl)
        /\ reports (N.of_nat (length (incomplete tbl)))).
Proof.
  intros N. cbv zeta.
  split; [now apply summarize_fetches_once|].
  apply String.eqb_neq in N.
  assert (R : forall st err count,
             o = Responded true st (inr (mkSummaryBody err (Some count))) ->
             filter is_toast (effects_of (summarizeAndSendToSlack o) s)
             = [ShowToast
                  (mkToast "Success"
                     ("Summary of " ++ Js.number_to_string count
                        ++ " todos sent to Slack successfully!") false)]).
  { intros st err count ->. run_handler. rewrite N. run_handler. reflexivity. }
  split.
  - intros st err count E _. exact (R st err count E).
  - intros well_formed_url llm webhook describe tbl n sv S E _.
    apply serve_done_count in S. split; [exact S|].
    rewrite <- S. exact (R _ _ _ E).
Qed.

Lemma summarize_request_and_count_witness :
  slackWebhookUrl (main_state [write_report] hook_url) <> EmptyString
  /\ serve sample_well_formed sample_llm sample_webhook hook_url sample_table
     = (Done 1,
        mkServer sample_table
          [CallStore; CallLlm "- Write report";
           CallWebhook hook_url "You still have to do: - Write report"])
  /\ (N.of_nat 1 < 2 ^ 53)%N
  /\ filter is_toast
       (effects_of
          (summarizeAndSendToSlack (respond_summarize sample_describe (Done 1)))
          (main_state [write_report] hook_url))
     = [ShowToast
          (mkToast "Success" "Summary of 1 todos sent to Slack successfully!"
                   false)].
Proof.
  assert (N : slackWebhookUrl (main_state [write_report] hook_url)
              <> EmptyString) by discriminate.
  assert (B : (N.of_nat 1 < 2 ^ 53)%N) by reflexivity.
  split; [exact N|]. split; [reflexivity|]. split; [exact B|].
  exact (proj2 (proj2 (proj2 (summarize_request_and_count
                                (main_state [write_report] hook_url)
                                (respond_summarize sample_describe (Done 1)) N))
                  sample_well_formed sample_llm sample_webhook sample_describe
                  sample_table 1 _ eq_refl eq_refl B)).
Defined.

(** The component sends a non-empty URL as it is, well-formed or not. *)
Lemma malformed_url_reaches_the_network :
  filter is_fetch
    (effects_of (summarizeAndSendToSlack (Rejected ThrownOther))
                (main_state [write_report] "not-a-url"))
  = [Fetch POST "/api/summarize" (Some [("slackWebhookUrl", JStr "not-a-url")])].
Proof. reflexivity. Qed.

(** The component checks the URL for emptiness only: it makes no request
    exactly when the URL is empty, and then shows the toast "Please enter a
    Slack webhook URL" and changes nothing else. *)
Lemma summarize_rejects_only_empty_url (s : App) (o : Outcome SummaryBody) :
  let effects := effects_of (summarizeAndSendToSlack o) s in
  (filter is_fetch effects = [] <-> slackWebhookUrl s = EmptyString)
  /\ (slackWebhookUrl s = EmptyString ->
      effects = [ShowToast (mkToast "Error" "Please enter a Slack webhook URL"
                                    true)]
      /\ exec (summarizeAndSendToSlack o) s
         = mkApp (todos s) (loading s) (summarizing s) (slackWebhookUrl s)
                 (apiError s) (tableExists s) (storage s)
                 (trace s ++ effects))
  /\ (slackWebhookUrl s <> EmptyString ->
      filter is_fetch effects
      = [Fetch POST "/api/summarize"
           (Some [("slackWebhookUrl", JStr (slackWebhookUrl s))])]).
Proof.
  cbv zeta. destruct (String.eqb_spec (slackWebhookUrl s) EmptyString) as [E | N].
  - apply String.eqb_eq in E as E'.
    run_handler. rewrite E'. run_handler.
    repeat split; auto. intros F; contradiction.
  - rewrite (summarize_fetches_once s o N).
    split; [split; [discriminate | intros F; contradiction]|].
    split; [intros F; contradiction | reflexivity].
Qed.

(** With no incomplete task in the list the summarize button is disabled
    and the notice is shown; a click on the disabled button changes nothing
    and makes no request. *)
Lemma summarize_disabled_without_pending (s : App) (o : Outcome SummaryBody) :
  pendingTodos s = [] ->
  summarize_disabled s = true
  /\ pending_notice s = Some "No pending todos to summarize"
  /\ exec (click_summarize o) s = s
  /\ effects_of (click_summarize o) s = [].
Proof.
  intros E.
  assert (D : summarize_disabled s = true).
  { unfold summarize_disabled. rewrite E. apply orb_true_r. }
  unfold pending_notice, effects_of, exec, click_summarize.
  rewrite D, E. cbn. repeat split. apply skipn_all.
Qed.

(** ** The two tabs *)

Lemma count_occ_split (l : list Todo) (t : Todo) :
  count_occ Todo_eq_dec (filter (fun todo => negb (completed todo)) l) t
  + count_occ Todo_eq_dec (filter (fun todo => completed todo) l) t
  = count_occ Todo_eq_dec l t.
Proof.
  induction l as [|x l IH]; [reflexivity|].
  cbn [filter]. destruct (completed x); cbn [negb count_occ];
    destruct (Todo_eq_dec x t); lia.
Qed.

(** C9: the pending tab holds exactly the tasks with [completed = false],
    the completed tab exactly those with [completed = true]; every
    occurrence of a task is in one tab and not in the other, and the two
    counts add up to the length of the list. *)
Theorem tabs_partition_the_list (s : App) :
  (forall t, In t (pendingTodos s) <-> In t (todos s) /\ completed t = false)
  /\ (forall t, In t (completedTodos s) <-> In t (todos s) /\ completed t = true)
  /\ (forall t, count_occ Todo_eq_dec (pendingTodos s) t
                + count_occ Todo_eq_dec (completedTodos s) t
                = count_occ Todo_eq_dec (todos s) t)
  /\ (forall t, ~ (In t (pendingTodos s) /\ In t (completedTodos s)))
  /\ length (pendingTodos s) + length (completedTodos s) = length (todos s).
Proof.
  unfold pendingTodos, completedTodos.
  assert (P : forall t, In t (filter (fun todo => negb (completed todo)) (todos s))
                        <-> In t (todos s) /\ completed t = false).
  { intros t. rewrite filter_In, negb_true_iff. tauto. }
  assert (C : forall t, In t (filter (fun todo => completed todo) (todos s))
                        <-> In t (todos s) /\ completed t = true).
  { intros t. now rewrite filter_In. }
  split; [exact P|]. split; [exact C|]. split; [|split].
  - intros t. apply count_occ_split.
  - intros t [A B]. apply P in A. apply C in B. destruct A, B. congruence.
  - rewrite Nat.add_comm. apply (filter_length (fun todo => completed todo)).
Qed.

(** ** Creating a task *)

(** C10: after a successful create the new task is the head of the list,
    followed by the former list in its order, and the only request made is
    the POST to /api/todos. *)
Theorem addTodo_puts_new_task_first (s : App) (todo : TodoFormData) (st : N)
    (newTodo : Todo) :
  let created := Responded true st (inr newTodo) in
  todos (exec (addTodo todo created) s) = newTodo :: todos s
  /\ filter is_fetch (effects_of (addTodo todo created) s)
     = [Fetch POST "/api/todos" (Some (json_of_form todo))].
Proof. cbv zeta. run_handler. split; reflexivity. Qed.

(** ** The task store *)




Lemma NoDup_map_filter {A B} (g : A -> B) (f : A -> bool) (l : list A) :
  NoDup (map g l) -> NoDup (map g (filter f l)).
Proof.
  induction l as [|x l IH]; cbn; intros N; [constructor|].
  inversion N as [|? ? Hx Hl]; subst.
  destruct (f x); cbn; auto. constructor; auto.
  intros I. apply Hx. apply in_map_iff in I as (y & E & I).
  apply filter_In in I as [I _]. apply in_map_iff. eauto.
Qed.



Section StoreInvariant.

Variable fresh_id : list string -> string.
Variable conflict_error : ApiError.


Lemma update_cases (now id0 : string) (p : TodoPatch) (st : Store) :
  (find (has_id id0) (rows st) = None
   /\ update now id0 p st = (Throws NotFound, st))
  \/ (exists t,
        find (has_id id0) (rows st) = Some t
        /\ update now id0 p st
           = (Done (apply_patch now p t),
              mkStore (map (fun r => if has_id id0 r then apply_patch now p r
                                     else r) (rows st))
                      (issued st) now)).
Proof.
  unfold update, bind, gets. cbn.
  destruct (find (has_id id0) (rows st)) as [t|]; [right | left]; eauto.
Qed.






End StoreInvariant.




(** ** Updating [completed] *)

Lemma find_patched (now id0 : string) (p : TodoPatch) (l : list Todo) (t : Todo) :
  find (has_id id0) l = Some t ->
  find (has_id id0)
       (map (fun r => if has_id id0 r then apply_patch now p r else r) l)
  = Some (apply_patch now p t).
Proof.
  induction l as [|x l IH]; cbn; [discriminate|].
  destruct (has_id id0 x) eqn:E.
  - intros [= ->]. cbn. unfold has_id in *. cbn. now rewrite E.
  - intros F. cbn. rewrite E. auto.
Qed.

(** C6: an update that sets [completed] to [b] returns the task with
    [completed = b] and [updated_at] refreshed, all of [id], [title],
    [description] and [created_at] as before, and leaves every other row as
    it was; the same update again returns the same task but for
    [updated_at]; the component replaces the entries of that [id] by the
    returned task and keeps the others. *)
Theorem update_completed_touches_two_fields (st : Store) (now id0 : string)
    (b : bool) (t : Todo) :
  find (has_id id0) (rows st) = Some t ->
  exists t' st',
    update now id0 (patch_set_completed b) st = (Done t', st')
    /\ t' = mkTodo (id t) (title t) (description t) b (created_at t) now
    /\ rows st'
       = map (fun r => if has_id id0 r
                       then mkTodo (id r) (title r) (description r) b
                                   (created_at r) now
                       else r) (rows st)
    /\ (forall later,
          exists st'',
            update later id0 (patch_set_completed b) st'
            = (Done (mkTodo (id t') (title t') (description t') (completed t')
                            (created_at t') later), st''))
    /\ (forall s status,
          todos (exec (updateTodo id0 (patch_set_completed b)
                                  (Responded true status (inr t'))) s)
          = map (fun todo => if id todo =? id0 then t' else todo) (todos s)).
Proof.
  intros F.
  destruct (update_cases now id0 (patch_set_completed b) st)
    as [[N _] | (t0 & F0 & E)]; [congruence|].
  assert (t0 = t) by congruence. subst t0.
  eexists. eexists. split; [exact E|]. split; [reflexivity|].
  split; [reflexivity|]. split.
  - intros later.
    destruct (update_cases later id0 (patch_set_completed b)
                (mkStore (map (fun r => if has_id id0 r
                                        then apply_patch now (patch_set_completed b) r
                                        else r) (rows st))
                         (issued st) now))
      as [[N _] | (t1 & F1 & E1)]; cbn [rows] in *.
    + rewrite (find_patched now id0 _ _ t F) in N. discriminate.
    + rewrite (find_patched now id0 _ _ t F) in F1. injection F1 as <-.
      eexists. exact E1.
  - intros s status. run_handler. reflexivity.
Qed.

Lemma update_completed_touches_two_fields_witness :
  find (has_id "1") (rows (mkStore [write_report] ["1"] "2024-05-01T10:00:00Z"))
  = Some write_report
  /\ exists t' st',
       update "2024-05-03T12:00:00Z" "1" (patch_set_completed true)
              (mkStore [write_report] ["1"] "2024-05-01T10:00:00Z")
       = (Done t', st')
       /\ t' = mkTodo "1" "Write report" None true "2024-05-01T10:00:00Z"
                      "2024-05-03T12:00:00Z".
Proof.
  split; [reflexivity|].
  destruct (update_completed_touches_two_fields
              (mkStore [write_report] ["1"] "2024-05-01T10:00:00Z")
              "2024-05-03T12:00:00Z" "1" true write_report eq_refl)
    as (t' & st' & U & T & _).
  exists t', st'. split; [exact U | exact T].
Defined.

(** ** The summarize-and-notify pipeline *)

Section PipelineFacts.

Variable well_formed_url : string -> bool.
Variable llm : string -> Completion.
Variable webhook : string -> string -> N.
Variable describe : ApiError -> string.

Lemma client_shows_error_text (s : App) (e : ApiError) :
  slackWebhookUrl s <> EmptyString ->
  describe e <> EmptyString ->
  filter is_toast
    (effects_of (summarizeAndSendToSlack (respond_summarize describe (Throws e)))
                s)
  = [ShowToast (mkToast "Error" (describe e) true)].
Proof.
  intros U D. apply String.eqb_neq in U. apply String.eqb_neq in D.
  run_handler. rewrite U. run_handler. rewrite D. reflexivity.
Qed.

(** C5: the pipeline ends with the error of the first stage that fails and
    has then made only the outbound calls up to that stage: none for a bad
    destination, the store read for an unavailable store or an empty set of
    incomplete tasks, the store read and the LLM call for an LLM failure;
    when delivery fails the webhook call is the last one; it ends with the
    count only when the summary was generated and delivered.  The component
    shows the error text of the response as it arrives. *)
Theorem pipeline_stops_at_first_error (url : string) (tbl : option Store) :
  let pending := incomplete tbl in
  let prompt := build_prompt pending in
  let entry := serve well_formed_url llm webhook url tbl in
  let stopped e made := entry = (Throws e, mkServer tbl made) in
  ((url = EmptyString \/ well_formed_url url = false) ->
   stopped InvalidDestination [])
  /\ (url <> EmptyString -> well_formed_url url = true ->
      (tbl = None -> stopped StoreUnavailable [CallStore])
      /\ (tbl <> None -> pending = [] -> stopped NoPendingItems [CallStore])
      /\ (tbl <> None -> pending <> [] ->
          (llm prompt = LlmUnreachable ->
           stopped UpstreamUnavailable [CallStore; CallLlm prompt])
          /\ (llm prompt = LlmText EmptyString ->
              stopped EmptyCompletion [CallStore; CallLlm prompt])
          /\ (forall text,
                llm prompt = LlmText text -> text <> EmptyString ->
                let made := [CallStore; CallLlm prompt; CallWebhook url text] in
                (http_success (webhook url text) = false ->
                 stopped (DeliveryFailed (webhook url text)) made)
                /\ (http_success (webhook url text) = true ->
                    entry = (Done (length pending), mkServer tbl made)))))
  /\ (forall s e,
        slackWebhookUrl s <> EmptyString -> describe e <> EmptyString ->
        filter is_toast
          (effects_of
             (summarizeAndSendToSlack (respond_summarize describe (Throws e)))
             s)
        = [ShowToast (mkToast "Error" (describe e) true)]).
Proof.
  cbv zeta. split; [|split; [|exact client_shows_error_text]].
  - intros [-> | W]; run_pipeline; [reflexivity|].
    rewrite W. now rewrite orb_true_r.
  - intros U W. apply String.eqb_neq in U.
    assert (V : (url =? "") || negb (well_formed_url url) = false)
      by now rewrite U, W.
    split; [|split].
    + intros ->. run_pipeline. now rewrite V.
    + destruct tbl as [st|]; [intros _ | now intros []].
      unfold incomplete. intros E. run_pipeline. rewrite V, E. reflexivity.
    + destruct tbl as [st|]; [intros _ | now intros []].
      unfold incomplete.
      destruct (filter (fun todo => negb (completed todo)) (rows st))
        as [|x pending] eqn:E; [now intros [] | intros _].
      split; [|split].
      * intros L. run_pipeline. rewrite V, E. run_pipeline. now rewrite L.
      * intros L. run_pipeline. rewrite V, E. run_pipeline. now rewrite L.
      * intros text L T. apply String.eqb_neq in T.
        split; intros S; run_pipeline; rewrite V, E; run_pipeline;
          rewrite L, T; run_pipeline; rewrite S; reflexivity.
Qed.

End PipelineFacts.

Lemma pipeline_stops_at_first_error_witness :
  serve sample_well_formed sample_llm sample_webhook hook_url sample_table
  = (Done 1,
     mkServer sample_table
       [CallStore; CallLlm "- Write report";
        CallWebhook hook_url "You still have to do: - Write report"]).
Proof.
  refine (proj2 (proj2 (proj2 (proj2 (proj2
            (proj1 (proj2 (pipeline_stops_at_first_error
                             sample_well_formed sample_llm sample_webhook
                             sample_describe hook_url sample_table))
               _ _)) _ _)) _ _ _) _);
    first [reflexivity | discriminate].
Defined.

(** * Further properties of the handlers *)

(** The value a response yields when its status is successful and its body
    parses. *)
Definition parsed {A} (o : Outcome A) : option A :=
  match o with
  | Responded true _ (inr a) => Some a
  | _ => None
  end.

(** A response with a successful status, whatever its body. *)
Definition accepted {A} (o : Outcome A) : bool :=
  match o with
  | Responded true _ _ => true
  | _ => false
  end.

(** The fields of the component other than the list and the trace. *)
Definition flags (s : App)
  : bool * bool * string * option string * bool * option string :=
  (loading s, summarizing s, slackWebhookUrl s, apiError s, tableExists s,
   storage s).

Definition error_toast (descr : string) : Effect :=
  ShowToast (mkToast "Error" descr true).

Definition success_toast (descr : string) : Effect :=
  ShowToast (mkToast "Success" descr false).

Definition unique_ids (l : list Todo) : Prop := NoDup (map id l).

(** [l] with every entry of identifier [id0] replaced by [t']. *)
Definition replaced (id0 : string) (t' : Todo) (l : list Todo) : list Todo :=
  map (fun todo => if id todo =? id0 then t' else todo) l.

(** [l] without the entries of identifier [id0]. *)
Definition without (id0 : string) (l : list Todo) : list Todo :=
  filter (fun todo => negb (id todo =? id0)) l.

(** The requests among the effects of one handler run. *)
Definition requests_of (ev : Event) (s : App) : list Effect :=
  filter is_fetch (effects_of (handler ev) s).

(** A failure response whose error string names the missing table: the
    case that ends [fetchTodos] by its early return. *)
Definition names_missing_table (o : Outcome ListBody) : bool :=
  match o with
  | Responded false _ (inr b) => error_mentions_missing_table (error_of b)
  | _ => false
  end.

(** ** Create, update, delete *)

(** X1: [addTodo] makes one POST to /api/todos and shows one toast; the new
    task is put first exactly when the status is successful and the body
    parses; on a rejected request, a failure status or an unparsable body the
    list is unchanged and the toast is the error toast.  No other field of
    the component changes. *)
Theorem addTodo_outcomes (s : App) (todo : TodoFormData) (o : Outcome Todo) :
  let s' := exec (addTodo todo o) s in
  let effects := effects_of (addTodo todo o) s in
  todos s' = match parsed o with
             | Some newTodo => newTodo :: todos s
             | None => todos s
             end
  /\ filter is_toast effects
     = [match parsed o with
        | Some _ => success_toast "Todo added successfully"
        | None => error_toast "Failed to add todo. Please try again."
        end]
  /\ filter is_fetch effects
     = [Fetch POST "/api/todos" (Some (json_of_form todo))]
  /\ flags s' = flags s.
Proof.
  cbv zeta. unfold flags.
  destruct o as [e | [|] st [e | t]]; run_handler; repeat split.
Qed.

(** X2: [updateTodo] makes one PATCH to /api/todos/{id} carrying the
    updates and shows one toast; on success every entry with that
    identifier is replaced by the task of the response and every other entry
    stays at its place, so the length is kept and a list without that
    identifier is unchanged; on any failure the list is unchanged. *)
Theorem updateTodo_outcomes (s : App) (id0 : string) (updates : TodoPatch)
    (o : Outcome Todo) :
  let s' := exec (updateTodo id0 updates o) s in
  let effects := effects_of (updateTodo id0 updates o) s in
  todos s' = match parsed o with
             | Some updatedTodo => replaced id0 updatedTodo (todos s)
             | None => todos s
             end
  /\ length (todos s') = length (todos s)
  /\ (forall n t, nth_error (todos s) n = Some t -> id t <> id0 ->
                  nth_error (todos s') n = Some t)
  /\ ((forall t, In t (todos s) -> id t <> id0) -> todos s' = todos s)
  /\ filter is_toast effects
     = [match parsed o with
        | Some _ => success_toast "Todo updated successfully"
        | None => error_toast "Failed to update todo. Please try again."
        end]
  /\ filter is_fetch effects
     = [Fetch PATCH ("/api/todos/" ++ id0) (Some (json_of_patch updates))]
  /\ flags s' = flags s.
Proof.
  cbv zeta. unfold flags.
  assert (L : forall t', length (replaced id0 t' (todos s)) = length (todos s))
    by (intros; apply length_map).
  assert (K : forall t' n t, nth_error (todos s) n = Some t -> id t <> id0 ->
                             nth_error (replaced id0 t' (todos s)) n = Some t).
  { intros t' n t E N. unfold replaced. rewrite nth_error_map, E. cbn.
    apply String.eqb_neq in N. now rewrite N. }
  assert (U : forall t', (forall t, In t (todos s) -> id t <> id0) ->
                         replaced id0 t' (todos s) = todos s).
  { intros t' A. unfold replaced. rewrite <- (map_id (todos s)) at 2.
    apply map_ext_in. intros t I. apply A in I. apply String.eqb_neq in I.
    now rewrite I. }
  destruct o as [e | [|] st [e | t]]; run_handler; repeat split; auto;
    first [apply L | apply K | apply U].
Qed.

Lemma without_absent (id0 : string) (l : list Todo) :
  ~ In id0 (map id l) -> without id0 l = l.
Proof.
  induction l as [|x l IH]; cbn; [reflexivity|]. intros N.
  destruct (String.eqb_spec (id x) id0) as [E | _]; cbn.
  - elim N. now left.
  - f_equal. apply IH. intros I. apply N. now right.
Qed.

Lemma without_gone (id0 : string) (l : list Todo) :
  ~ In id0 (map id (without id0 l)).
Proof.
  intros I. apply in_map_iff in I as (t & E & I).
  apply filter_In in I as [_ I]. apply negb_true_iff, String.eqb_neq in I.
  contradiction.
Qed.

(** X3: [deleteTodo] makes one DELETE to /api/todos/{id} and shows one
    toast; it succeeds exactly when the status is successful (the body is
    never read), and then the list loses every entry of that identifier and
    keeps the others in order; on a rejected request or a failure status the
    list is unchanged.  Deleting an identifier the list does not hold
    changes nothing. *)
Theorem deleteTodo_outcomes (s : App) (id0 : string) (o : Outcome unit) :
  let s' := exec (deleteTodo id0 o) s in
  let effects := effects_of (deleteTodo id0 o) s in
  todos s' = (if accepted o then without id0 (todos s) else todos s)
  /\ (accepted o = true -> ~ In id0 (map id (todos s')))
  /\ (forall t, id t <> id0 -> (In t (todos s') <-> In t (todos s)))
  /\ (~ In id0 (map id (todos s)) -> todos s' = todos s)
  /\ filter is_toast effects
     = [if accepted o then success_toast "Todo deleted successfully"
        else error_toast "Failed to delete todo. Please try again."]
  /\ filter is_fetch effects = [Fetch DELETE ("/api/todos/" ++ id0) None]
  /\ flags s' = flags s.
Proof.
  cbv zeta.
  assert (T : todos (exec (deleteTodo id0 o) s)
              = if accepted o then without id0 (todos s) else todos s).
  { destruct o as [e | [|] st b]; run_handler; reflexivity. }
  rewrite T. split; [reflexivity|]. split; [|split; [|split]].
  - intros ->. apply without_gone.
  - intros t N. destruct (accepted o); [|tauto].
    unfold without. rewrite filter_In. apply String.eqb_neq in N.
    rewrite N. cbn. tauto.
  - intros N. destruct (accepted o); [|reflexivity].
    now apply without_absent.
  - unfold flags. destruct o as [e | [|] st b]; run_handler; repeat split.
Qed.

Lemma deleteTodo_outcomes_witness :
  accepted (Responded true 204 (inl ThrownOther) : Outcome unit) = true
  /\ ~ In "1" (map id (todos (exec (deleteTodo "1"
                                      (Responded true 204 (inl ThrownOther)))
                                   (main_state [write_report] hook_url)))).
Proof.
  split; [reflexivity|].
  exact (proj1 (proj2 (deleteTodo_outcomes (main_state [write_report] hook_url)
                         "1" (Responded true 204 (inl ThrownOther))))
           eq_refl).
Defined.

Lemma replaced_ids (id0 : string) (t' : Todo) (l : list Todo) :
  id t' = id0 -> map id (replaced id0 t' l) = map id l.
Proof.
  intros E. unfold replaced. rewrite map_map. apply map_ext. intros t.
  destruct (String.eqb_spec (id t) id0); congruence.
Qed.

(** X4: the handlers keep the identifiers of the list pairwise different:
    [addTodo] when the task of the response has an identifier the list does
    not hold yet, [updateTodo] when the task of the response has the
    identifier that was asked for, [deleteTodo] always; every failed call
    keeps the list, hence the property. *)
Theorem handlers_keep_unique_ids (s : App) :
  unique_ids (todos s) ->
  (forall todo o,
     (forall newTodo, parsed o = Some newTodo ->
                      ~ In (id newTodo) (map id (todos s))) ->
     unique_ids (todos (exec (addTodo todo o) s)))
  /\ (forall id0 updates o,
        (forall updatedTodo, parsed o = Some updatedTodo ->
                             id updatedTodo = id0) ->
        unique_ids (todos (exec (updateTodo id0 updates o) s)))
  /\ (forall id0 o, unique_ids (todos (exec (deleteTodo id0 o) s))).
Proof.
  unfold unique_ids. intros U. split; [|split].
  - intros todo o F.
    destruct o as [e | [|] st [e | t]]; run_handler; auto.
    constructor; [apply F; reflexivity | exact U].
  - intros id0 updates o F.
    destruct o as [e | [|] st [e | t]]; run_handler; auto.
    change (NoDup (map id (replaced id0 t (todos s)))).
    rewrite replaced_ids; [exact U | apply F; reflexivity].
  - intros id0 o.
    destruct o as [e | [|] st b]; run_handler; auto.
    now apply NoDup_map_filter.
Qed.

Lemma handlers_keep_unique_ids_witness :
  unique_ids (todos (main_state [write_report] hook_url))
  /\ unique_ids
       (todos (exec (addTodo (mkForm "Review pull requests" None)
                       (Responded true 201
                          (inr (mkTodo "2" "Review pull requests" None false
                                       "2024-05-02T08:00:00Z"
                                       "2024-05-02T08:00:00Z"))))
                    (main_state [write_report] hook_url))).
Proof.
  assert (U : unique_ids (todos (main_state [write_report] hook_url))).
  { repeat constructor. intros []. }
  split; [exact U|].
  apply (proj1 (handlers_keep_unique_ids _ U)).
  intros newTodo [= <-]. cbn. intros [E | []]. discriminate E.
Defined.


Lemma summarize_stores_url (s : App) (o : Outcome SummaryBody) :
  slackWebhookUrl s <> EmptyString ->
  storage (exec (summarizeAndSendToSlack o) s) = Some (slackWebhookUrl s).
Proof.
  intros N. apply String.eqb_neq in N.
  destruct o as [e | [|] st [e | data]]; run_handler; rewrite N; run_handler;
    reflexivity.
Qed.

(** X6: the webhook URL survives a reload: after a summarize run with a
    non-empty URL, whatever its outcome, a component mounted on what local
    storage then holds has that URL in its field, whatever the outcome of
    its first fetch. *)
Theorem webhook_url_survives_reload (s : App) (o : Outcome SummaryBody)
    (o' : Outcome ListBody) :
  slackWebhookUrl s <> EmptyString ->
  let saved := storage (exec (summarizeAndSendToSlack o) s) in
  slackWebhookUrl (exec (on_mount o') (initial saved)) = slackWebhookUrl s.
Proof.
  intros N. cbv zeta. rewrite (summarize_stores_url s o N).
  apply String.eqb_neq in N. unfold on_mount, exec, bind.
  assert (F : storage (snd (fetchTodos o' (initial (Some (slackWebhookUrl s)))))
              = Some (slackWebhookUrl s)
              /\ exists r, fst (fetchTodos o' (initial (Some (slackWebhookUrl s))))
                           = Done r).
  { destruct o' as [e | [|] st [e | [items | err]]]; run_handler;
      repeat match goal with
             | |- context [if ?c then _ else _] => destruct c; run_handler
             end; eauto. }
  destruct (fetchTodos o' (initial (Some (slackWebhookUrl s))))
    as [[[] | e] s1]; cbn in F; destruct F as [F [r R]]; [|discriminate].
  unfold gets. cbn. rewrite F. now rewrite N.
Qed.

Lemma webhook_url_survives_reload_witness :
  slackWebhookUrl (main_state [write_report] hook_url) <> EmptyString
  /\ slackWebhookUrl
       (exec (on_mount (Rejected ThrownOther))
          (initial (storage (exec (summarizeAndSendToSlack (Rejected ThrownOther))
                                  (main_state [write_report] hook_url)))))
     = hook_url.
Proof.
  assert (N : slackWebhookUrl (main_state [write_report] hook_url)
              <> EmptyString) by discriminate.
  split; [exact N|].
  exact (webhook_url_survives_reload (main_state [write_report] hook_url)
           (Rejected ThrownOther) (Rejected ThrownOther) N).
Defined.

Lemma on_mount_trace (o : Outcome ListBody) (s : App) :
  trace (exec (on_mount o) s) = trace (exec (fetchTodos o) s)
  /\ loading (exec (on_mount o) s) = loading (exec (fetchTodos o) s)
  /\ tableExists (exec (on_mount o) s) = tableExists (exec (fetchTodos o) s)
  /\ apiError (exec (on_mount o) s) = apiError (exec (fetchTodos o) s).
Proof.
  unfold on_mount, exec, bind.
  destruct (fetchTodos o s) as [[[] | e] s1]; cbn; auto.
  unfold gets. destruct (storage s1) as [v|]; cbn; auto.
  destruct (v =? ""); cbn; auto.
Qed.

(** X7: which view follows a completed [fetchTodos].  The spinner is gone
    on every path.  A parsed body under a successful status gives the main
    view with the error state cleared.  An error whose text names the missing
    table gives the setup card.  Any other error gives the error fallback
    with its text only if the table was not marked missing before; if it
    was, the setup card stays on screen, since this path does not reset that
    mark. *)
Theorem view_after_fetchTodos (s : App) (o : Outcome ListBody) :
  let s' := exec (fetchTodos o) s in
  loading s' = false
  /\ (error_text o = None ->
      render s' = ViewMain /\ apiError s' = None /\ tableExists s' = true)
  /\ (forall text,
        error_text o = Some text ->
        (mentions_missing_table text = true -> render s' = ViewSetupRequired)
        /\ (mentions_missing_table text = false ->
            (tableExists s = false -> render s' = ViewSetupRequired)
            /\ (tableExists s = true -> text <> EmptyString ->
                render s' = ViewApiError text))).
Proof.
  cbv zeta. split; [|split].
  - destruct o as [e | [|] st [e | [items | err]]]; run_handler;
      repeat match goal with
             | |- context [if ?c then _ else _] => destruct c; run_handler
             end; reflexivity.
  - destruct o as [e | [|] st [e | [items | [err|]]]]; cbn [error_text];
      try discriminate; intros _; run_handler; repeat split.
  - intros text T.
    destruct o as [e | [|] st [e | [items | [err|]]]];
      cbn [error_text] in T; try discriminate; injection T as <-;
      try (destruct e as [m|]; cbn [message_of]);
      match goal with
      | |- context [mentions_missing_table ?t = true] =>
          destruct (mentions_missing_table t) eqn:E
      end;
      (split; [intros M | intros M; split; [intros X | intros X N]]);
      try discriminate; unfold render; run_handler; rewrite ?E; run_handler;
      rewrite ?X; cbn;
      try reflexivity;
      try (apply String.eqb_neq in N; rewrite N; reflexivity).
    + destruct (String.eqb_spec err EmptyString) as [-> | N'];
        [rewrite status_message_not_marker | rewrite E]; run_handler;
        reflexivity.
    + apply String.eqb_neq in N. rewrite N, E. run_handler.
      rewrite ?X. cbn. now rewrite N.
Qed.

Lemma view_after_fetchTodos_witness :
  error_text (Rejected (ThrownError "Failed to fetch")) = Some "Failed to fetch"
  /\ mentions_missing_table "Failed to fetch" = false
  /\ tableExists setup_required_state = false
  /\ render (exec (fetchTodos (Rejected (ThrownError "Failed to fetch")))
                  setup_required_state) = ViewSetupRequired.
Proof.
  split; [reflexivity|]. split; [reflexivity|]. split; [reflexivity|].
  exact (proj1 (proj2 (proj2 (proj2 (view_after_fetchTodos setup_required_state
                                       (Rejected (ThrownError "Failed to fetch"))))
                         "Failed to fetch" eq_refl) eq_refl) eq_refl).
Defined.

Lemma on_mount_effects (o : Outcome ListBody) (s : App) :
  effects_of (on_mount o) s = effects_of (fetchTodos o) s.
Proof.
  unfold effects_of. now rewrite (proj1 (on_mount_trace o s)).
Qed.

Lemma fetchTodos_requests (o : Outcome ListBody) (s : App) :
  filter is_fetch (effects_of (fetchTodos o) s) = [Fetch GET "/api/todos" None].
Proof.
  destruct o as [e | [|] st [e | [items | err]]]; run_handler;
    repeat match goal with
           | |- context [if ?c then _ else _] => destruct c; run_handler
           end; reflexivity.
Qed.

Lemma addTodo_requests (todo : TodoFormData) (o : Outcome Todo) (s : App) :
  filter is_fetch (effects_of (addTodo todo o) s)
  = [Fetch POST "/api/todos" (Some (json_of_form todo))].
Proof. destruct o as [e | [|] st [e | t]]; run_handler; reflexivity. Qed.

Lemma updateTodo_requests (id0 : string) (updates : TodoPatch)
    (o : Outcome Todo) (s : App) :
  filter is_fetch (effects_of (updateTodo id0 updates o) s)
  = [Fetch PATCH ("/api/todos/" ++ id0) (Some (json_of_patch updates))].
Proof. destruct o as [e | [|] st [e | t]]; run_handler; reflexivity. Qed.

Lemma deleteTodo_requests (id0 : string) (o : Outcome unit) (s : App) :
  filter is_fetch (effects_of (deleteTodo id0 o) s)
  = [Fetch DELETE ("/api/todos/" ++ id0) None].
Proof. destruct o as [e | [|] st b]; run_handler; reflexivity. Qed.

(** X8: whatever the event and the outcome of its request, a handler makes
    at most one request, and its path starts with /api/: the component never
    calls the webhook URL or any other host itself. *)
Theorem requests_stay_on_api (ev : Event) (s : App) :
  length (requests_of ev s) <= 1
  /\ forall m p b, In (Fetch m p b) (requests_of ev s) ->
                   Js.starts_with p "/api/" = true.
Proof.
  unfold requests_of.
  assert (G : forall l, (l = [] \/ exists m p b,
                           l = [Fetch m p b]
                           /\ Js.starts_with p "/api/" = true) ->
                        length l <= 1
                        /\ forall m p b, In (Fetch m p b) l ->
                                         Js.starts_with p "/api/" = true).
  { intros l [-> | (m & p & b & -> & P)]; cbn; split; auto; try tauto.
    intros m' p' b' [[= <- <- <-] | []]. exact P. }
  apply G.
  destruct ev as [o | o | o | todo o | id0 updates o | id0 o | value | o];
    cbn [handler].
  - right. rewrite on_mount_effects, fetchTodos_requests. eauto.
  - right. rewrite fetchTodos_requests. eauto.
  - right. rewrite fetchTodos_requests. eauto.
  - right. rewrite addTodo_requests. eauto.
  - right. rewrite updateTodo_requests. do 3 eexists. split; reflexivity.
  - right. rewrite deleteTodo_requests. do 3 eexists. split; reflexivity.
  - left. unfold effects_of, exec. cbn. now rewrite skipn_all.
  - unfold click_summarize, effects_of, exec.
    destruct (summarize_disabled s); [left; cbn; now rewrite skipn_all|].
    fold (exec (summarizeAndSendToSlack o) s).
    fold (effects_of (summarizeAndSendToSlack o) s).
    destruct (String.eqb_spec (slackWebhookUrl s) EmptyString) as [E | N].
    + left. apply String.eqb_eq in E. run_handler. rewrite E. run_handler.
      reflexivity.
    + right. rewrite (summarize_fetches_once s o N). eauto.
Qed.

Lemma replaced_absent (id0 : string) (t' : Todo) (l : list Todo) :
  ~ In id0 (map id l) -> replaced id0 t' l = l.
Proof.
  induction l as [|x l IH]; cbn; [reflexivity|]. intros N.
  destruct (String.eqb_spec (id x) id0) as [E | _].
  - elim N. now left.
  - f_equal. apply IH. intros I. apply N. now right.
Qed.

Lemma replaced_count (f : Todo -> bool) (t t' : Todo) (l : list Todo) :
  unique_ids l -> In t l ->
  length (filter f (replaced (id t) t' l)) + (if f t then 1 else 0)
  = length (filter f l) + (if f t' then 1 else 0).
Proof.
  unfold unique_ids. induction l as [|x l IH]; cbn; [intros _ []|].
  intros U I. inversion U as [|? ? Hx Hl]; subst.
  destruct (String.eqb_spec (id x) (id t)) as [E | N].
  - assert (x = t).
    { destruct I as [-> | I]; [reflexivity|].
      elim Hx. rewrite E. now apply in_map. }
    subst x. change (map _ l) with (replaced (id t) t' l).
    rewrite (replaced_absent (id t) t' l Hx).
    destruct (f t), (f t'); cbn; lia.
  - destruct I as [-> | I]; [now elim N|].
    specialize (IH Hl I). change (map _ l) with (replaced (id t) t' l).
    destruct (f x); cbn; lia.
Qed.

(** X10: ticking a task moves it from one tab to the other.  In a list
    with pairwise different identifiers, when a successful update of a task
    comes back with that identifier and the other value of [completed], the
    tab the task was in shows one task less, the other tab one more, and
    the task as it was is no longer in the list. *)
Theorem toggle_moves_between_tabs (s : App) (t t' : Todo)
    (updates : TodoPatch) (st : N) :
  unique_ids (todos s) ->
  In t (todos s) ->
  id t' = id t ->
  completed t' = negb (completed t) ->
  let s' := exec (updateTodo (id t) updates (Responded true st (inr t'))) s in
  (if completed t
   then length (completedTodos s) = S (length (completedTodos s'))
        /\ length (pendingTodos s') = S (length (pendingTodos s))
   else length (pendingTodos s) = S (length (pendingTodos s'))
        /\ length (completedTodos s') = S (length (completedTodos s)))
  /\ In t' (todos s') /\ ~ In t (todos s').
Proof.
  intros U I E C. cbv zeta.
  assert (T : todos (exec (updateTodo (id t) updates
                              (Responded true st (inr t'))) s)
              = replaced (id t) t' (todos s)) by (run_handler; reflexivity).
  unfold pendingTodos, completedTodos. rewrite T.
  pose proof (replaced_count (fun todo => completed todo) t t' _ U I) as P.
  pose proof (replaced_count (fun todo => negb (completed todo)) t t' _ U I) as Q.
  cbv beta in P, Q. rewrite C in P, Q.
  split; [destruct (completed t); cbn in P, Q; lia|]. split.
  - unfold replaced. apply in_map_iff. exists t. now rewrite String.eqb_refl.
  - intros J. unfold replaced in J. apply in_map_iff in J as (x & X & J).
    destruct (String.eqb_spec (id x) (id t)) as [Ex | Nx].
    + subst t'. destruct (completed t); discriminate.
    + subst x. now elim Nx.
Qed.

Lemma toggle_moves_between_tabs_witness :
  unique_ids (todos (main_state [write_report] hook_url))
  /\ In write_report (todos (main_state [write_report] hook_url))
  /\ length (pendingTodos (main_state [write_report] hook_url))
     = S (length (pendingTodos
                    (exec (updateTodo "1" (patch_set_completed true)
                             (Responded true 200
                                (inr (mkTodo "1" "Write report" None true
                                             "2024-05-01T10:00:00Z"
                                             "2024-05-03T12:00:00Z"))))
                          (main_state [write_report] hook_url)))).
Proof.
  assert (U : unique_ids (todos (main_state [write_report] hook_url))).
  { repeat constructor. intros []. }
  assert (I : In write_report (todos (main_state [write_report] hook_url)))
    by (now left).
  split; [exact U|]. split; [exact I|].
  exact (proj1 (proj1 (toggle_moves_between_tabs
                         (main_state [write_report] hook_url) write_report
                         (mkTodo "1" "Write report" None true
                                 "2024-05-01T10:00:00Z" "2024-05-03T12:00:00Z")
                         (patch_set_completed true) 200 U I eq_refl eq_refl))).
Defined.

(** X11: a create followed by a delete of the created task gives back the
    list as it was, when the identifier of the created task was not in the
    list before. *)
Theorem add_then_delete_restores (s : App) (todo : TodoFormData)
    (newTodo : Todo) (st st' : N) (b : Thrown + unit) :
  ~ In (id newTodo) (map id (todos s)) ->
  todos (exec (deleteTodo (id newTodo) (Responded true st' b))
              (exec (addTodo todo (Responded true st (inr newTodo))) s))
  = todos s.
Proof.
  intros N. run_handler. rewrite String.eqb_refl. cbn.
  now apply without_absent.
Qed.

Lemma add_then_delete_restores_witness :
  ~ In "2" (map id (todos (main_state [write_report] hook_url)))
  /\ todos (exec (deleteTodo "2" (Responded true 204 (inr tt)))
              (exec (addTodo (mkForm "Review pull requests" None)
                       (Responded true 201
                          (inr (mkTodo "2" "Review pull requests" None false
                                       "2024-05-02T08:00:00Z"
                                       "2024-05-02T08:00:00Z"))))
                    (main_state [write_report] hook_url)))
     = [write_report].
Proof.
  assert (N : ~ In "2" (map id (todos (main_state [write_report] hook_url)))).
  { cbn. intros [E | []]. discriminate E. }
  split; [exact N|].
  exact (add_then_delete_restores (main_state [write_report] hook_url)
           (mkForm "Review pull requests" None)
           (mkTodo "2" "Review pull requests" None false
                   "2024-05-02T08:00:00Z" "2024-05-02T08:00:00Z")
           201 204 (inr tt) N).
Defined.

Lemma append_assoc (a b c : string) : ((a ++ b) ++ c = a ++ (b ++ c))%string.
Proof. induction a; cbn; congruence. Qed.

Lemma contains_right (s a b : string) :
  contains s (a ++ b) -> contains s b.
Proof.
  intros [pre [post E]]. exists (pre ++ a)%string, post.
  now rewrite E, !append_assoc.
Qed.

(** X12: the test for the missing table reduces to its second half: a text
    is taken for a missing-table error exactly when it contains both
    ["relation"] and ["does not exist"], at any positions; the test for the
    full marker adds nothing. *)
Theorem missing_table_test_is_two_substrings (text : string) :
  mentions_missing_table text
  = Js.includes text "relation" && Js.includes text "does not exist".
Proof.
  unfold mentions_missing_table.
  destruct (Js.includes text table_marker) eqn:M; [|reflexivity].
  cbn [orb]. symmetry. apply andb_true_iff. split.
  - now apply marker_mentions_relation.
  - apply includes_spec. apply includes_spec in M.
    apply (contains_right text
             ("relation " ++ dquote ++ "public.todos" ++ dquote ++ " ")).
    exact M.
Qed.

(** X13: what [fetchTodos] leaves in the list, from any state: the array of
    a successful response; the list as it was, untouched, when a failure
    response names the missing table (the early return sets no list); and the
    empty list on every other path. *)
Theorem fetchTodos_list_by_outcome (s : App) (o : Outcome ListBody) :
  todos (exec (fetchTodos o) s)
  = if names_missing_table o then todos s else fetched o.
Proof.
  destruct o as [e | [|] st [e | [items | [err|]]]]; run_handler;
    try reflexivity;
    try (destruct (mentions_missing_table _); run_handler; reflexivity).
  destruct (mentions_missing_table err) eqn:E; run_handler; [reflexivity|].
  destruct (mentions_missing_table (if err =? "" then _ else _));
    reflexivity.
Qed.

Lemma updateTodo_outcomes_witness :
  (forall t, In t (todos (main_state [write_report] hook_url)) -> id t <> "9")
  /\ todos (exec (updateTodo "9" (patch_set_completed true)
                    (Responded true 200
                       (inr (mkTodo "9" "Other" None true "2024" "2024"))))
                 (main_state [write_report] hook_url))
     = [write_report].
Proof.
  assert (A : forall t, In t (todos (main_state [write_report] hook_url)) ->
                        id t <> "9").
  { intros t [<- | []]. discriminate. }
  split; [exact A|].
  exact (proj1 (proj2 (proj2 (proj2
           (updateTodo_outcomes (main_state [write_report] hook_url) "9"
              (patch_set_completed true)
              (Responded true 200
                 (inr (mkTodo "9" "Other" None true "2024" "2024")))))))
           A).
Defined.

Lemma requests_stay_on_api_witness :
  In (Fetch DELETE "/api/todos/1" None)
     (requests_of (DeleteItem "1" (Rejected ThrownOther))
                  (main_state [write_report] hook_url))
  /\ Js.starts_with "/api/todos/1" "/api/" = true.
Proof.
  assert (I : In (Fetch DELETE "/api/todos/1" None)
                 (requests_of (DeleteItem "1" (Rejected ThrownOther))
                              (main_state [write_report] hook_url)))
    by (now left).
  split; [exact I|].
  exact (proj2 (requests_stay_on_api (DeleteItem "1" (Rejected ThrownOther))
                  (main_state [write_report] hook_url)) _ _ _ I).
Defined.

(** * The stages of the pipeline, and the list after a fetch *)

Section PipelineStages.

Variable well_formed_url : string -> bool.
Variable llm : string -> Completion.
Variable webhook : string -> string -> N.

Lemma invalid_destination_test (url : string) :
  url = EmptyString \/ well_formed_url url = false ->
  (url =? "") || negb (well_formed_url url) = true.
Proof.
  intros [-> | W]; [reflexivity|]. rewrite W. apply orb_true_r.
Qed.

(** C3: for a webhook URL that is empty or not well-formed, the pipeline
    fails with [InvalidDestination] and has made no outbound call at all:
    no store read, no LLM call, no webhook call.  The dispatcher on its own
    refuses such a destination in the same way.  For the empty URL the
    component does not even send the request to the route. *)
Theorem invalid_destination_fails_before_any_call (url : string)
    (tbl : option Store) :
  (url = EmptyString \/ well_formed_url url = false) ->
  serve well_formed_url llm webhook url tbl
  = (Throws InvalidDestination, mkServer tbl [])
  /\ (forall text sv,
        dispatch_summary well_formed_url webhook text url sv
        = (Throws InvalidDestination, sv))
  /\ (url = EmptyString ->
      forall s o,
        slackWebhookUrl s = url ->
        filter is_fetch (effects_of (summarizeAndSendToSlack o) s) = []).
Proof.
  intros B. apply invalid_destination_test in B. split; [|split].
  - run_pipeline. now rewrite B.
  - intros text sv. run_pipeline. now rewrite B.
  - intros -> s o E. apply String.eqb_eq in E.
    run_handler. rewrite E. run_handler. reflexivity.
Qed.

(** C4: when no stored task is incomplete at the time of the request, the
    summarizer fails with [NoPendingItems] without a call, and the pipeline
    for a valid destination fails with [NoPendingItems] after the store read
    alone; whatever the destination, the pipeline fails and calls neither
    the LLM nor the webhook. *)
Theorem no_pending_fails_before_llm (url : string) (st : Store) :
  incomplete (Some st) = [] ->
  (forall sv, summarize llm [] sv = (Throws NoPendingItems, sv))
  /\ (url <> EmptyString -> well_formed_url url = true ->
      serve well_formed_url llm webhook url (Some st)
      = (Throws NoPendingItems, mkServer (Some st) [CallStore]))
  /\ (exists e made,
        serve well_formed_url llm webhook url (Some st)
        = (Throws e, mkServer (Some st) made)
        /\ (e = NoPendingItems \/ e = InvalidDestination)
        /\ forall c, In c made -> c = CallStore).
Proof.
  unfold incomplete. intros E.
  assert (V : forall sv, summarize llm [] sv = (Throws NoPendingItems, sv))
    by reflexivity.
  assert (P : (url =? "") || negb (well_formed_url url) = false ->
              serve well_formed_url llm webhook url (Some st)
              = (Throws NoPendingItems, mkServer (Some st) [CallStore])).
  { intros F. run_pipeline. rewrite F, E. reflexivity. }
  split; [exact V|]. split.
  - intros U W. apply P. apply String.eqb_neq in U. now rewrite U, W.
  - destruct ((url =? "") || negb (well_formed_url url)) eqn:F.
    + exists InvalidDestination, []. split; [|split; [now right | intros c []]].
      run_pipeline. now rewrite F.
    + exists NoPendingItems, [CallStore].
      split; [now apply P|]. split; [now left|].
      intros c [<- | []]. reflexivity.
Qed.

End PipelineStages.

Lemma invalid_destination_fails_before_any_call_witness :
  ("not-a-url" = EmptyString \/ sample_well_formed "not-a-url" = false)
  /\ serve sample_well_formed sample_llm sample_webhook "not-a-url" sample_table
     = (Throws InvalidDestination, mkServer sample_table []).
Proof.
  assert (B : "not-a-url" = EmptyString \/ sample_well_formed "not-a-url" = false)
    by (now right).
  split; [exact B|].
  exact (proj1 (invalid_destination_fails_before_any_call sample_well_formed
                  sample_llm sample_webhook "not-a-url" sample_table B)).
Defined.

Lemma no_pending_fails_before_llm_witness :
  incomplete (Some store_of_done_tasks) = []
  /\ serve sample_well_formed sample_llm sample_webhook hook_url
           (Some store_of_done_tasks)
     = (Throws NoPendingItems, mkServer (Some store_of_done_tasks) [CallStore]).
Proof.
  assert (E : incomplete (Some store_of_done_tasks) = []) by reflexivity.
  split; [exact E|].
  refine (proj1 (proj2 (no_pending_fails_before_llm sample_well_formed
                          sample_llm sample_webhook hook_url
                          store_of_done_tasks E)) _ _);
    first [reflexivity | discriminate].
Defined.



